(** * flaskext.seasurf: CSRF protection for Flask, shallow embedding

    The module [flaskext/seasurf.py] is embedded function by function.
    Python [str] values are [string]s, dictionaries ([session], the
    request's [headers], [form] and [cookies]) are finite maps, and the
    methods of [SeaSurf], which read and write the Flask session, the
    class-level list of exempt views, the application logger and the random
    source, are computations in a state-and-exception monad. *)

From Stdlib Require Import ZArith Lia Ascii String.
From stdpp Require Import base option list strings gmap pretty.

Local Open Scope Z_scope.
Local Open Scope string_scope.

(** ** Module-level helpers *)

(** [ord(c)] for a character of a byte string. *)
Definition ord (c : ascii) : Z := Z.of_N (N_of_ascii c).

(** [_constant_time_compare(val1, val2)]:
    unequal lengths give [False]; otherwise the differences of all zipped
    positions are or-ed into [result], and the answer is [result == 0]. *)
Definition _constant_time_compare (val1 val2 : string) : bool :=
  if negb (Nat.eqb (String.length val1) (String.length val2)) then false
  else
    let result :=
      fold_left (fun result xy => Z.lor result (Z.lxor (ord xy.1) (ord xy.2)))
                (zip (list_ascii_of_string val1) (list_ascii_of_string val2)) 0 in
    Z.eqb result 0.

(** ** Python values, exceptions and the state the methods run in *)

(** The objects that [request.endpoint] and the entries of
    [SeaSurf._exempt_views] can be: [None], a string (an endpoint name), or a
    function object (a view), identified by its identity.  Python's [==]
    never equates values of two different kinds here. *)
Inductive pyobj :=
| PyNone
| PyStr (s : string)
| PyFunction (id : N).

#[global] Instance pyobj_eq_dec : EqDecision pyobj.
Proof. solve_decision. Defined.

(** [x in xs] for a Python list. *)
Definition py_in (x : pyobj) (xs : list pyobj) : bool := bool_decide (x ∈ xs).

Inductive exn :=
| AttributeError (attr : string)
| KeyError (key : string)
| ValueError
| HTTPException (code : Z).

#[global] Instance exn_eq_dec : EqDecision exn.
Proof. solve_decision. Defined.

Inductive result (A : Type) :=
| Ret (a : A)
| Raise (e : exn).
Arguments Ret {A} a.
Arguments Raise {A} e.

(** [datetime.timedelta], as a number of seconds. *)
Definition timedelta := Z.
Definition timedelta_days (days : Z) : timedelta := days * 86400.

(** [flask.session]: a dictionary object.  Its keys ([k in session],
    [session[k]]) and its attributes ([hasattr(session, k)]) are two
    separate name spaces. *)
Record Session := {
  session_attrs : gset string;
  session_items : gmap string string
}.

(** The random source behind [randrange]: the sequence of draws it will
    deliver, and how many were consumed. *)
Record RandomSource := {
  tape : nat -> Z;
  drawn : nat
}.

Record World := {
  session : Session;
  _exempt_views : list pyobj;   (* the class attribute SeaSurf._exempt_views *)
  logger : list string;         (* warnings received by app.logger *)
  random : RandomSource
}.

Definition M (A : Type) : Type := World -> result A * World.

#[global] Instance M_ret : MRet M := fun A a w => (Ret a, w).
#[global] Instance M_bind : MBind M := fun A B f m w =>
  match m w with
  | (Ret a, w') => f a w'
  | (Raise e, w') => (Raise e, w')
  end.

Definition raise {A} (e : exn) : M A := fun w => (Raise e, w).
Definition lift {A} (r : result A) : M A := fun w => (r, w).
Definition get_session : M Session := fun w => (Ret (session w), w).
Definition put_session (s : Session) : M unit := fun w =>
  (Ret tt, {| session := s; _exempt_views := _exempt_views w;
              logger := logger w; random := random w |}).
Definition get_exempt_views : M (list pyobj) := fun w => (Ret (_exempt_views w), w).
Definition put_exempt_views (vs : list pyobj) : M unit := fun w =>
  (Ret tt, {| session := session w; _exempt_views := vs;
              logger := logger w; random := random w |}).
Definition log_warning (msg : string) : M unit := fun w =>
  (Ret tt, {| session := session w; _exempt_views := _exempt_views w;
              logger := logger w ++ [msg]; random := random w |}).

(** [randrange(start, stop)]: the next draw, brought into [start, stop). *)
Definition randrange (start stop : Z) : M Z := fun w =>
  let r := random w in
  (Ret (start + tape r (drawn r) `mod` (stop - start)),
   {| session := session w; _exempt_views := _exempt_views w; logger := logger w;
      random := {| tape := tape r; drawn := S (drawn r) |} |}).

(** [abort(code)] raises the HTTP exception of that status. *)
Definition abort {A} (code : Z) : M A := raise (HTTPException code).

(** ** Constants of the module *)

Definition _MAX_CSRF_KEY : Z := 18446744073709551616.

Definition REASON_NO_REFERER : string := "Referer checking failed: no referer.".
Definition REASON_BAD_REFERER (a b : string) : string :=
  "Referer checking failed: " +:+ a +:+ " does not match " +:+ b +:+ ".".
Definition REASON_NO_CSRF_TOKEN : string := "CSRF token not set.".
Definition REASON_BAD_TOKEN : string := "CSRF token missing or incorrect.".

(** ['Forbidden ({}): {}'.format(reason, path)] *)
Definition forbidden_message (reason path : string) : string :=
  "Forbidden (" +:+ reason +:+ "): " +:+ path.

(** ** The framework's objects *)

Record Config := {
  SECRET_KEY : option string;
  CSRF_DISABLE : option bool;
  TESTING : option bool;
  CSRF_COOKIE_TIMEOUT : option timedelta
}.

Record Flask := {
  config : Config;
  view_functions : gmap string pyobj    (* endpoint name -> view function *)
}.

Record Request := {
  method : string;
  endpoint : option string;
  is_secure : bool;
  headers : gmap string string;
  form : gmap string string;
  cookies : gmap string string;
  path : string;
  url_root : string
}.

Record Cookie := {
  cookie_key : string;
  cookie_value : string;
  cookie_max_age : option timedelta
}.

Record Response := {
  status_code : Z;
  set_cookies : list Cookie;    (* the Set-Cookie headers, in order *)
  vary : gset string
}.

Definition set_cookie (key value : string) (max_age : option timedelta)
    (response : Response) : Response :=
  {| status_code := status_code response;
     set_cookies := set_cookies response ++
       [{| cookie_key := key; cookie_value := value; cookie_max_age := max_age |}];
     vary := vary response |}.

Definition vary_add (h : string) (response : Response) : Response :=
  {| status_code := status_code response;
     set_cookies := set_cookies response;
     vary := {[ h ]} ∪ vary response |}.

(** [d.get(key, default)] *)
Definition dict_get (d : gmap string string) (key default : string) : string :=
  match d !! key with Some v => v | None => default end.

#[global] Instance result_ret : MRet result := fun A a => Ret a.
#[global] Instance result_bind : MBind result := fun A B f r =>
  match r with
  | Ret a => f a
  | Raise e => Raise e
  end.

(** The value of [urlparse.urlparse(url)], as far as [_same_origin] reads it.
    Reading [port] converts the port text to an integer, which can raise. *)
Record ParseResult := {
  scheme : string;
  hostname : option string;
  port : result (option Z)
}.

Section SeaSurf.

(** The two library functions the module calls: [urlparse.urlparse] and
    [hashlib.sha1(s).hexdigest()]. *)
Variable urlparse : string -> result ParseResult.
Variable sha1_hexdigest : string -> string.

(** [_same_origin(url1, url2)] *)
Definition _same_origin (url1 url2 : string) : result bool :=
  p1 ← urlparse url1;
  p2 ← urlparse url2;
  port1 ← port p1;
  port2 ← port p2;
  mret (bool_decide ((scheme p1, hostname p1, port1) = (scheme p2, hostname p2, port2))).

(** ** class SeaSurf *)

(** An instance on which [init_app] has run.  [app] is the instance
    attribute [self.app]: no method of the class assigns it, so it is absent
    ([None]) unless the surrounding program sets it. *)
Record SeaSurf := {
  app : option Flask;
  _secret_key : string;
  _csrf_disable : bool;
  _csrf_timeout : timedelta
}.

(** [init_app(self, app)]: the three attributes read from the configuration.
    (The registration of the hooks and of the Jinja global is the
    framework's side of the call.) *)
Definition init_app (self : SeaSurf) (flask : Flask) : SeaSurf :=
  {| app := app self;
     _secret_key := default "" (SECRET_KEY (config flask));
     _csrf_disable :=
       default (default false (TESTING (config flask))) (CSRF_DISABLE (config flask));
     _csrf_timeout := default (timedelta_days 5) (CSRF_COOKIE_TIMEOUT (config flask)) |}.

(** [SeaSurf(app)]: a fresh object, then [init_app]. *)
Definition SeaSurf_new (flask : Flask) : SeaSurf :=
  init_app {| app := None; _secret_key := ""; _csrf_disable := false;
              _csrf_timeout := 0 |} flask.

(** [self.app.logger.warning(msg)] *)
Definition warning (self : SeaSurf) (msg : string) : M unit :=
  match app self with
  | None => raise (AttributeError "app")
  | Some _ => log_warning msg
  end.

(** [exempt(self, view)] *)
Definition exempt (view : pyobj) : M pyobj :=
  views ← get_exempt_views;
  put_exempt_views (views ++ [view]);;
  mret view.

(** [request.endpoint] as a Python value. *)
Definition endpoint_obj (request : Request) : pyobj :=
  match endpoint request with
  | Some name => PyStr name
  | None => PyNone
  end.

(** [_before_request(self)]: returning normally lets the request through. *)
Definition _before_request (self : SeaSurf) (request : Request) : M unit :=
  if _csrf_disable self then mret tt
  else if negb (bool_decide (method request ∈ ["GET"; "HEAD"; "OPTIONS"; "TRACE"])) then
    views ← get_exempt_views;
    if py_in (endpoint_obj request) views then mret tt
    else
      (if is_secure request then
         match headers request !! "HTTP_REFERER" with
         | None =>
             warning self (forbidden_message REASON_NO_REFERER (path request));;
             abort 403
         | Some referer =>
             let allowed_referer := url_root request in
             same ← lift (_same_origin referer allowed_referer);
             if negb same then
               warning self (forbidden_message
                 (REASON_BAD_REFERER referer allowed_referer) (path request));;
               abort 403
             else mret tt
         end
       else mret tt);;
      let csrf_token := dict_get (cookies request) "_csrf_token" "" in
      let request_csrf_token := "" in
      let request_csrf_token :=
        if String.eqb (method request) "POST"
        then dict_get (form request) "_csrf_token" ""
        else request_csrf_token in
      let request_csrf_token :=
        if String.eqb request_csrf_token ""
        then dict_get (headers request) "HTTP_X_CSRFTOKEN" ""
        else request_csrf_token in
      if negb (_constant_time_compare request_csrf_token csrf_token) then
        warning self (forbidden_message REASON_BAD_TOKEN (path request));;
        abort 403
      else mret tt
  else mret tt.

(** [hasattr(session, name)] *)
Definition hasattr (s : Session) (name : string) : bool :=
  bool_decide (name ∈ session_attrs s).

(** [_after_request(self, response)] *)
Definition _after_request (self : SeaSurf) (response : Response) : M Response :=
  s ← get_session;
  if negb (hasattr s "_csrf_token") then mret response
  else
    match session_items s !! "_csrf_token" with
    | None => raise (KeyError "_csrf_token")
    | Some token =>
        let response := set_cookie "_csrf_token" token (Some (_csrf_timeout self)) response in
        let response := vary_add "Cookie" response in
        mret response
    end.

(** [_generate_token(self)] *)
Definition _generate_token (self : SeaSurf) : M string :=
  r ← randrange 0 _MAX_CSRF_KEY;
  let salt := (r, _secret_key self) in
  mret (sha1_hexdigest (pretty salt.1 +:+ salt.2)).

(** [_set_token(self)] *)
Definition _set_token (self : SeaSurf) : M string :=
  csrf_token ← _generate_token self;
  s ← get_session;
  (if bool_decide (session_items s !! "_csrf_token" = None) then
     put_session {| session_attrs := session_attrs s;
                    session_items := <["_csrf_token" := csrf_token]> (session_items s) |}
   else mret tt);;
  s ← get_session;
  match session_items s !! "_csrf_token" with
  | Some token => mret token
  | None => raise (KeyError "_csrf_token")
  end.

End SeaSurf.

(** ** Names for the stages of [_before_request] *)

(** The request method is one of GET, HEAD, OPTIONS, TRACE. *)
Definition safe_method (request : Request) : bool :=
  bool_decide (method request ∈ ["GET"; "HEAD"; "OPTIONS"; "TRACE"]).

(** The value of [request_csrf_token] when the comparison is made. *)
Definition supplied_token (request : Request) : string :=
  let from_form :=
    if String.eqb (method request) "POST"
    then dict_get (form request) "_csrf_token" "" else "" in
  if String.eqb from_form ""
  then dict_get (headers request) "HTTP_X_CSRFTOKEN" "" else from_form.

(** The value of [csrf_token] when the comparison is made. *)
Definition canonical_token (request : Request) : string :=
  dict_get (cookies request) "_csrf_token" "".

(** The token bound to the session, empty if none is. *)
Definition session_token (w : World) : string :=
  dict_get (session_items (session w)) "_csrf_token" "".

(** The referer stage lets the request go on: the request is not secure, or
    its referer is present and of the same origin as [url_root]. *)
Definition referer_check_passes (urlparse : string -> result ParseResult)
    (request : Request) : bool :=
  if is_secure request then
    match headers request !! "HTTP_REFERER" with
    | None => false
    | Some referer =>
        match _same_origin urlparse referer (url_root request) with
        | Ret true => true
        | _ => false
        end
    end
  else true.

(** Validation is on, the method is unsafe, the endpoint is not found among
    the exempt views, and the referer stage is passed. *)
Definition reaches_comparison (urlparse : string -> result ParseResult)
    (self : SeaSurf) (request : Request) (w : World) : bool :=
  negb (_csrf_disable self) && negb (safe_method request)
  && negb (py_in (endpoint_obj request) (_exempt_views w))
  && referer_check_passes urlparse request.

(** What each refusal of [_before_request] does: the warning, then
    [abort(403)]. *)
Definition deny (self : SeaSurf) (reason path : string) : M unit :=
  warning self (forbidden_message reason path);;
  abort 403.

(** The value is a function object, as a decorated view is. *)
Definition is_function (o : pyobj) : Prop :=
  match o with
  | PyFunction _ => True
  | _ => False
  end.

(** The state after one draw from the random source. *)
Definition advance (w : World) : World :=
  {| session := session w; _exempt_views := _exempt_views w; logger := logger w;
     random := {| tape := tape (random w); drawn := S (drawn (random w)) |} |}.

(** The state after the logger received [msg]. *)
Definition logged (msg : string) (w : World) : World :=
  {| session := session w; _exempt_views := _exempt_views w;
     logger := logger w ++ [msg]; random := random w |}.

(** The state with [views] as the list of exempt views. *)
Definition with_exempt_views (views : list pyobj) (w : World) : World :=
  {| session := session w; _exempt_views := views;
     logger := logger w; random := random w |}.

(** The draw that [randrange] delivers next. *)
Definition next_draw (w : World) : Z := tape (random w) (drawn (random w)).

(** The request with other headers, another form, another [url_root]. *)
Definition with_headers (hdrs : gmap string string) (r : Request) : Request :=
  {| method := method r; endpoint := endpoint r; is_secure := is_secure r;
     headers := hdrs; form := form r; cookies := cookies r;
     path := path r; url_root := url_root r |}.

Definition with_form (frm : gmap string string) (r : Request) : Request :=
  {| method := method r; endpoint := endpoint r; is_secure := is_secure r;
     headers := headers r; form := frm; cookies := cookies r;
     path := path r; url_root := url_root r |}.

Definition with_url_root (root : string) (r : Request) : Request :=
  {| method := method r; endpoint := endpoint r; is_secure := is_secure r;
     headers := headers r; form := form r; cookies := cookies r;
     path := path r; url_root := root |}.

(** The triple that [_same_origin] compares: the scheme, the host name and
    the port of the parsed URL. *)
Definition origin (urlparse : string -> result ParseResult) (url : string)
    : result (string * option string * option Z) :=
  p ← urlparse url;
  o ← port p;
  mret (scheme p, hostname p, o).

(** The outcome of the comparison stage of [_before_request]. *)
Definition token_stage (self : SeaSurf) (request : Request) (w : World)
    : result unit * World :=
  if _constant_time_compare (supplied_token request) (canonical_token request)
  then (Ret tt, w)
  else deny self REASON_BAD_TOKEN (path request) w.

(** ** Sample data *)

Module Sample.

(** The parse of the URLs of the examples. *)
Definition urlparse (url : string) : result ParseResult :=
  if String.eqb url "https://example.com/" then
    Ret {| scheme := "https"; hostname := Some "example.com"; port := Ret None |}
  else if String.eqb url "https://example.com/form" then
    Ret {| scheme := "https"; hostname := Some "example.com"; port := Ret None |}
  else if String.eqb url "https://example.com:8443/form" then
    Ret {| scheme := "https"; hostname := Some "example.com"; port := Ret (Some 8443) |}
  else if String.eqb url "https://evil.example.org/attack" then
    Ret {| scheme := "https"; hostname := Some "evil.example.org"; port := Ret None |}
  else if String.eqb url "https://example.com:x/" then
    Ret {| scheme := "https"; hostname := Some "example.com"; port := Raise ValueError |}
  else
    Ret {| scheme := ""; hostname := None; port := Ret None |}.

Definition some_view : pyobj := PyFunction 1.

Definition flask : Flask :=
  {| config := {| SECRET_KEY := Some "s3cr3t"; CSRF_DISABLE := None;
                  TESTING := None; CSRF_COOKIE_TIMEOUT := None |};
     view_functions := {[ "some_view" := some_view ]} |}.

(** [csrf = SeaSurf(app)] *)
Definition csrf : SeaSurf := SeaSurf_new flask.

(** The same object after the program's own [csrf.app = app]. *)
Definition csrf_with_app : SeaSurf :=
  {| app := Some flask; _secret_key := _secret_key csrf;
     _csrf_disable := _csrf_disable csrf; _csrf_timeout := _csrf_timeout csrf |}.

Definition world (items : gmap string string) (views : list pyobj) : World :=
  {| session := {| session_attrs := list_to_set ["new"; "modified"; "permanent"];
                   session_items := items |};
     _exempt_views := views;
     logger := [];
     random := {| tape := fun n => 1000 + Z.of_nat n; drawn := 0 |} |}.

Definition request (meth : string) (secure : bool)
    (hdrs frm cks : gmap string string) : Request :=
  {| method := meth; endpoint := Some "some_view"; is_secure := secure;
     headers := hdrs; form := frm; cookies := cks;
     path := "/some_view"; url_root := "https://example.com/" |}.

Definition response : Response :=
  {| status_code := 200; set_cookies := []; vary := ∅ |}.

End Sample.

(** * Properties *)

(** ** The comparison of tokens *)

Example ctc_equal : _constant_time_compare "abc123" "abc123" = true.
Proof. reflexivity. Qed.

Example ctc_last_char : _constant_time_compare "abc123" "abc124" = false.
Proof. reflexivity. Qed.

Example ctc_prefix : _constant_time_compare "abc12" "abc123" = false.
Proof. reflexivity. Qed.

Example ctc_empty : _constant_time_compare "" "" = true.
Proof. reflexivity. Qed.

Lemma ord_inj (x y : ascii) : ord x = ord y -> x = y.
Proof.
  unfold ord. intros H. apply N2Z.inj in H.
  rewrite <- (ascii_N_embedding x), <- (ascii_N_embedding y). now rewrite H.
Qed.

Lemma xor_ord_zero (x y : ascii) : Z.lxor (ord x) (ord y) = 0 <-> x = y.
Proof.
  split.
  - intros H. apply ord_inj, Z.lxor_eq, H.
  - intros ->. apply Z.lxor_nilpotent.
Qed.

(** The accumulator ends at zero exactly when it started at zero and no
    position differed. *)
Lemma accumulate_zero (l : list (ascii * ascii)) (r : Z) :
  fold_left (fun result xy => Z.lor result (Z.lxor (ord xy.1) (ord xy.2))) l r = 0
  <-> r = 0 /\ Forall (fun xy => xy.1 = xy.2) l.
Proof.
  revert r. induction l as [|[x y] l IH]; intros r; simpl.
  - split; [intros H; split; [exact H | constructor] | intros [H _]; exact H].
  - rewrite IH, Z.lor_eq_0_iff, xor_ord_zero. split.
    + intros [[Hr Hxy] Hl]. split; [exact Hr | constructor; assumption].
    + intros [Hr Hl]. inversion Hl; subst. repeat split; assumption.
Qed.

Lemma zip_all_equal (l1 l2 : list ascii) :
  length l1 = length l2 ->
  Forall (fun xy => xy.1 = xy.2) (zip l1 l2) <-> l1 = l2.
Proof.
  revert l2. induction l1 as [|x l1 IH]; intros [|y l2] Hlen; simpl in *;
    try discriminate.
  - split; [reflexivity | constructor].
  - injection Hlen as Hlen. split.
    + intros H. inversion H as [|? ? Hxy Hrest]; subst. simpl in Hxy. subst.
      f_equal. now apply IH.
    + intros [= -> ->]. constructor; [reflexivity | now apply IH].
Qed.

Lemma length_chars (s : string) : length (list_ascii_of_string s) = String.length s.
Proof. induction s as [|c s IH]; simpl; [reflexivity | now rewrite IH]. Qed.

Lemma chars_inj (s t : string) :
  list_ascii_of_string s = list_ascii_of_string t -> s = t.
Proof.
  intros H. rewrite <- (string_of_list_ascii_of_string s),
    <- (string_of_list_ascii_of_string t). now rewrite H.
Qed.

Lemma ctc_true_iff (A B : string) : _constant_time_compare A B = true <-> A = B.
Proof.
  unfold _constant_time_compare.
  destruct (Nat.eqb_spec (String.length A) (String.length B)) as [Hlen|Hlen]; simpl.
  - rewrite Z.eqb_eq, accumulate_zero, zip_all_equal
      by (now rewrite !length_chars).
    split.
    + intros [_ H]. now apply chars_inj.
    + intros ->. split; reflexivity.
  - split; [discriminate | intros ->; contradiction].
Qed.

(** C7. For sequences [A] and [B] of equal length, the constant-time
    comparison returns true if and only if [A] equals [B]; for sequences of
    unequal length it returns false. *)
Theorem constant_time_compare_spec (A B : string) :
  (String.length A = String.length B ->
     (_constant_time_compare A B = true <-> A = B)) /\
  (String.length A <> String.length B -> _constant_time_compare A B = false).
Proof.
  split.
  - intros _. apply ctc_true_iff.
  - intros Hlen. unfold _constant_time_compare.
    destruct (Nat.eqb_spec (String.length A) (String.length B)); [contradiction | reflexivity].
Qed.

Lemma constant_time_compare_spec_witness :
  (_constant_time_compare "abc123" "abc124" = true <-> "abc123" = "abc124") /\
  _constant_time_compare "abc12" "abc123" = false.
Proof.
  split.
  - apply (proj1 (constant_time_compare_spec "abc123" "abc124")). reflexivity.
  - apply (proj2 (constant_time_compare_spec "abc12" "abc123")). simpl. lia.
Defined.

(** ** The stages of the validation *)

(** [init_app] leaves the attribute [app] as it finds it, and the object
    built by [SeaSurf(app)] has none. *)
Lemma init_app_keeps_app self flask : app (init_app self flask) = app self.
Proof. reflexivity. Qed.

Lemma new_instance_has_no_app flask : app (SeaSurf_new flask) = None.
Proof. reflexivity. Qed.

Lemma deny_without_app self reason path w :
  app self = None -> deny self reason path w = (Raise (AttributeError "app"), w).
Proof. intros H. unfold deny, warning. rewrite H. reflexivity. Qed.

Lemma deny_with_app self reason path w flask :
  app self = Some flask ->
  deny self reason path w =
    (Raise (HTTPException 403),
     {| session := session w; _exempt_views := _exempt_views w;
        logger := logger w ++ [forbidden_message reason path];
        random := random w |}).
Proof. intros H. unfold deny, warning. rewrite H. reflexivity. Qed.

Lemma deny_not_allowed self reason path w : fst (deny self reason path w) <> Ret tt.
Proof.
  unfold deny, warning. destruct (app self); simpl; discriminate.
Qed.

Lemma deny_keeps_session self reason path w :
  session (snd (deny self reason path w)) = session w.
Proof. unfold deny, warning. destruct (app self); reflexivity. Qed.

(** Past the switch, the method test, the exemption test and the referer
    stage, the outcome is that of the comparison of [request_csrf_token]
    with [csrf_token]. *)
Lemma before_request_at_comparison urlparse self request w :
  reaches_comparison urlparse self request w = true ->
  _before_request urlparse self request w =
    if _constant_time_compare (supplied_token request) (canonical_token request)
    then (Ret tt, w)
    else deny self REASON_BAD_TOKEN (path request) w.
Proof.
  unfold reaches_comparison, safe_method, referer_check_passes.
  rewrite !andb_true_iff, !negb_true_iff. intros [[[Hdis Hsafe] Hex] Href].
  unfold _before_request. rewrite Hdis, Hsafe.
  unfold mbind at 1. unfold M_bind, get_exempt_views.
  change (negb false) with true. cbv beta iota. rewrite Hex.
  unfold supplied_token, canonical_token, deny.
  unfold mbind, M_bind, lift, mret, M_ret.
  destruct (is_secure request).
  - destruct (headers request !! "HTTP_REFERER") as [referer|]; [|discriminate].
    destruct (_same_origin urlparse referer (url_root request)) as [[|]|];
      try discriminate.
    simpl. destruct (_constant_time_compare _ _); reflexivity.
  - destruct (_constant_time_compare _ _); reflexivity.
Qed.


(** ** Safe methods *)

(** C9. A request whose method is GET, HEAD, OPTIONS or TRACE is let through
    by [_before_request], whatever its tokens, its endpoint, its transport
    and its headers are; nothing is logged or changed. *)
Theorem before_request_safe_method urlparse self request w :
  method request ∈ ["GET"; "HEAD"; "OPTIONS"; "TRACE"] ->
  _before_request urlparse self request w = (Ret tt, w).
Proof.
  intros Hsafe. unfold _before_request.
  destruct (_csrf_disable self); [reflexivity|].
  rewrite bool_decide_eq_true_2 by exact Hsafe. reflexivity.
Qed.

Lemma before_request_safe_method_witness :
  let request := Sample.request "HEAD" true ∅ ∅ {[ "_csrf_token" := "abc123" ]} in
  method request ∈ ["GET"; "HEAD"; "OPTIONS"; "TRACE"] /\
  _before_request Sample.urlparse Sample.csrf request (Sample.world ∅ []) =
    (Ret tt, Sample.world ∅ []).
Proof.
  intros request.
  assert (H : method request ∈ ["GET"; "HEAD"; "OPTIONS"; "TRACE"])
    by (constructor; constructor).
  split; [exact H|].
  exact (before_request_safe_method Sample.urlparse Sample.csrf request _ H).
Defined.

(** ** The session token *)

Lemma generate_token_eval sha1_hexdigest self w :
  _generate_token sha1_hexdigest self w =
    (Ret (sha1_hexdigest
            (pretty (0 + tape (random w) (drawn (random w)) `mod` (_MAX_CSRF_KEY - 0))
             +:+ _secret_key self)),
     advance w).
Proof. reflexivity. Qed.

Lemma set_token_bound sha1_hexdigest self w token :
  session_items (session w) !! "_csrf_token" = Some token ->
  _set_token sha1_hexdigest self w = (Ret token, advance w).
Proof.
  intros H. unfold _set_token. unfold mbind at 1. unfold M_bind.
  rewrite generate_token_eval.
  unfold mbind, M_bind, get_session. simpl.
  rewrite H. rewrite bool_decide_eq_false_2 by discriminate.
  unfold mret, M_ret. simpl. rewrite H. reflexivity.
Qed.

Lemma set_token_fresh sha1_hexdigest self w :
  session_items (session w) !! "_csrf_token" = None ->
  exists token w',
    fst (_generate_token sha1_hexdigest self w) = Ret token /\
    _set_token sha1_hexdigest self w = (Ret token, w') /\
    session_attrs (session w') = session_attrs (session w) /\
    session_items (session w') = <["_csrf_token" := token]> (session_items (session w)).
Proof.
  intros H. unfold _set_token. unfold mbind at 1. unfold M_bind.
  rewrite generate_token_eval.
  unfold mbind, M_bind, get_session. simpl.
  rewrite H. rewrite bool_decide_eq_true_2 by reflexivity.
  unfold put_session. simpl. rewrite lookup_insert_eq.
  eexists _, _. repeat split.
Qed.

(** C8. Two consecutive calls of [_set_token] return the same token.  When
    the session already holds a token, the call returns it and leaves the
    session as it was; otherwise the call returns the token it generated,
    now bound to the session. *)
Theorem set_token_idempotent sha1_hexdigest self w :
  let first := _set_token sha1_hexdigest self w in
  let second := _set_token sha1_hexdigest self (snd first) in
  fst second = fst first /\
  match session_items (session w) !! "_csrf_token" with
  | Some token => fst first = Ret token /\ session (snd first) = session w
  | None =>
      exists token,
        fst (_generate_token sha1_hexdigest self w) = Ret token /\
        fst first = Ret token /\
        session_items (session (snd first)) !! "_csrf_token" = Some token
  end.
Proof.
  cbv zeta.
  destruct (session_items (session w) !! "_csrf_token") as [token|] eqn:Hw.
  - rewrite (set_token_bound _ _ _ _ Hw). simpl.
    rewrite (set_token_bound _ _ (advance w) token Hw). repeat split.
  - destruct (set_token_fresh sha1_hexdigest self w Hw)
      as (token & w' & Hgen & Hset & _ & Hitems).
    rewrite Hset. simpl.
    assert (Hw' : session_items (session w') !! "_csrf_token" = Some token)
      by (rewrite Hitems; apply lookup_insert_eq).
    rewrite (set_token_bound _ _ _ _ Hw'). split; [reflexivity|].
    exists token. repeat split; assumption.
Qed.

Example set_token_twice :
  let digest := fun s => "sha1(" +:+ s +:+ ")" in
  let first := _set_token digest Sample.csrf (Sample.world ∅ []) in
  fst first = Ret "sha1(1000s3cr3t)" /\
  fst (_set_token digest Sample.csrf (snd first)) = Ret "sha1(1000s3cr3t)" /\
  fst (_generate_token digest Sample.csrf (snd first)) = Ret "sha1(1001s3cr3t)".
Proof. vm_compute. repeat split. Qed.

(** ** The session is written by [_set_token] alone *)

Lemma before_request_keeps_session urlparse self request w :
  session (snd (_before_request urlparse self request w)) = session w.
Proof.
  unfold _before_request.
  destruct (_csrf_disable self); [reflexivity|].
  destruct (bool_decide _); [reflexivity|].
  change (negb false) with true. cbv iota.
  unfold mbind, M_bind, get_exempt_views, lift, mret, M_ret, abort, raise, warning,
    log_warning.
  destruct (py_in _ _); [reflexivity|].
  destruct (is_secure request).
  - destruct (headers request !! "HTTP_REFERER") as [referer|].
    + destruct (_same_origin urlparse referer (url_root request)) as [[|]|]; simpl.
      * destruct (_constant_time_compare _ _); simpl; [reflexivity|].
        destruct (app self); reflexivity.
      * destruct (app self); reflexivity.
      * reflexivity.
    + destruct (app self); reflexivity.
  - destruct (_constant_time_compare _ _); simpl; [reflexivity|].
    destruct (app self); reflexivity.
Qed.

Lemma after_request_keeps_session self response w :
  session (snd (_after_request self response w)) = session w.
Proof.
  unfold _after_request, mbind, M_bind, get_session.
  destruct (hasattr _ _); simpl; [|reflexivity].
  destruct (session_items (session w) !! "_csrf_token"); reflexivity.
Qed.

(** C10. [_before_request] never writes to the session: whether it lets the
    request through, refuses it or fails, the session (and so its token
    binding) is afterwards what it was before.  The same holds of
    [_after_request] and of [exempt]; only [_set_token] binds a token. *)
Theorem session_written_by_set_token_only urlparse sha1_hexdigest self w :
  (forall request,
     session (snd (_before_request urlparse self request w)) = session w /\
     session_items (session (snd (_before_request urlparse self request w)))
       !! "_csrf_token" = session_items (session w) !! "_csrf_token") /\
  (forall response, session (snd (_after_request self response w)) = session w) /\
  (forall view, session (snd (exempt view w)) = session w) /\
  is_Some (session_items (session (snd (_set_token sha1_hexdigest self w)))
             !! "_csrf_token").
Proof.
  split; [|split; [|split]].
  - intros request. rewrite before_request_keeps_session. split; reflexivity.
  - intros response. apply after_request_keeps_session.
  - intros view. reflexivity.
  - destruct (session_items (session w) !! "_csrf_token") as [token|] eqn:Hw.
    + rewrite (set_token_bound _ _ _ _ Hw). simpl. rewrite Hw. eauto.
    + destruct (set_token_fresh sha1_hexdigest self w Hw)
        as (token & w' & _ & Hset & _ & Hitems).
      rewrite Hset. simpl. rewrite Hitems, lookup_insert_eq. eauto.
Qed.

(** ** The token comparison *)

Lemma before_request_allowed_iff urlparse self request w :
  reaches_comparison urlparse self request w = true ->
  fst (_before_request urlparse self request w) = Ret tt <->
  supplied_token request = canonical_token request.
Proof.
  intros Hreach. rewrite (before_request_at_comparison _ _ _ _ Hreach).
  rewrite <- ctc_true_iff.
  destruct (_constant_time_compare _ _).
  - split; reflexivity.
  - split; [|discriminate]. intros H. now apply deny_not_allowed in H.
Qed.

(** Equal tokens let the request through whenever the referer stage does:
    with validation off, a safe method or an exempt endpoint the request
    passes before the comparison is reached. *)
Lemma before_request_allowed_if_match urlparse self request w :
  referer_check_passes urlparse request = true ->
  supplied_token request = canonical_token request ->
  _before_request urlparse self request w = (Ret tt, w).
Proof.
  intros Href Heq.
  destruct (reaches_comparison urlparse self request w) eqn:Hreach.
  - rewrite (before_request_at_comparison _ _ _ _ Hreach).
    apply ctc_true_iff in Heq. now rewrite Heq.
  - unfold reaches_comparison in Hreach. rewrite Href, andb_true_r in Hreach.
    unfold _before_request, safe_method in *.
    destruct (_csrf_disable self); [reflexivity|].
    destruct (bool_decide _); [reflexivity|].
    change (negb false) with true. cbv iota.
    unfold mbind at 1. unfold M_bind, get_exempt_views.
    destruct (py_in _ _); [reflexivity | discriminate].
Qed.

Lemma supplied_token_post_form request token :
  method request = "POST" -> form request !! "_csrf_token" = Some token ->
  token <> "" -> supplied_token request = token.
Proof.
  intros Hm Hf Hne. unfold supplied_token, dict_get. rewrite Hm, Hf. simpl.
  destruct (String.eqb_spec token ""); [contradiction | reflexivity].
Qed.

Lemma supplied_token_post_no_form request :
  method request = "POST" -> form request !! "_csrf_token" = None ->
  supplied_token request = dict_get (headers request) "HTTP_X_CSRFTOKEN" "".
Proof.
  intros Hm Hf. unfold supplied_token. unfold dict_get at 1 2. rewrite Hm, Hf.
  reflexivity.
Qed.

(** C1, as the code has it.  For a request that reaches the comparison, the
    canonical value is the request's [_csrf_token] cookie (the empty string
    when there is none): the request is let through exactly when the
    supplied token equals it.  A POST whose cookie is "abc123" passes with
    the form token "abc123" and does not pass with "abc124". *)
Theorem comparison_uses_cookie_token urlparse self request w :
  reaches_comparison urlparse self request w = true ->
  (fst (_before_request urlparse self request w) = Ret tt <->
     supplied_token request = dict_get (cookies request) "_csrf_token" "") /\
  (method request = "POST" ->
   cookies request !! "_csrf_token" = Some "abc123" ->
   (form request !! "_csrf_token" = Some "abc123" ->
      _before_request urlparse self request w = (Ret tt, w)) /\
   (form request !! "_csrf_token" = Some "abc124" ->
      fst (_before_request urlparse self request w) <> Ret tt)).
Proof.
  intros Hreach. split; [exact (before_request_allowed_iff _ _ _ _ Hreach)|].
  intros Hm Hc.
  assert (Hcanon : canonical_token request = "abc123")
    by (unfold canonical_token, dict_get; now rewrite Hc).
  split; intros Hf.
  - rewrite (before_request_at_comparison _ _ _ _ Hreach).
    rewrite (supplied_token_post_form _ _ Hm Hf), Hcanon by discriminate.
    reflexivity.
  - rewrite (before_request_allowed_iff _ _ _ _ Hreach).
    rewrite (supplied_token_post_form _ _ Hm Hf), Hcanon by discriminate.
    discriminate.
Qed.

Lemma comparison_uses_cookie_token_witness :
  let w := Sample.world ∅ [] in
  let cookie : gmap string string := {[ "_csrf_token" := "abc123" ]} in
  let good := Sample.request "POST" false ∅ {[ "_csrf_token" := "abc123" ]} cookie in
  let bad := Sample.request "POST" false ∅ {[ "_csrf_token" := "abc124" ]} cookie in
  reaches_comparison Sample.urlparse Sample.csrf good w = true /\
  _before_request Sample.urlparse Sample.csrf good w = (Ret tt, w) /\
  fst (_before_request Sample.urlparse Sample.csrf bad w) <> Ret tt.
Proof.
  intros w cookie good bad.
  assert (Hgood : reaches_comparison Sample.urlparse Sample.csrf good w = true)
    by (vm_compute; reflexivity).
  assert (Hbad : reaches_comparison Sample.urlparse Sample.csrf bad w = true)
    by (vm_compute; reflexivity).
  split; [exact Hgood|]. split.
  - apply (comparison_uses_cookie_token _ _ _ _ Hgood); vm_compute; reflexivity.
  - apply (comparison_uses_cookie_token _ _ _ _ Hbad); vm_compute; reflexivity.
Defined.

(** C1, as stated, fails: the session holds "abc123", the form supplies
    "abc123", the request carries no cookie, and the request is not let
    through (the canonical value is the empty string, not the session's
    token). *)
Lemma session_token_not_compared :
  let w := Sample.world {[ "_csrf_token" := "abc123" ]} [] in
  let request := Sample.request "POST" false ∅ {[ "_csrf_token" := "abc123" ]} ∅ in
  reaches_comparison Sample.urlparse Sample.csrf request w = true /\
  session_token w = "abc123" /\
  form request !! "_csrf_token" = Some "abc123" /\
  canonical_token request = "" /\
  fst (_before_request Sample.urlparse Sample.csrf request w) <> Ret tt /\
  fst (_before_request Sample.urlparse Sample.csrf_with_app request w)
    = Raise (HTTPException 403).
Proof. vm_compute. repeat split; discriminate. Qed.

(** ** The header fallback *)

(** C5, as the code has it.  For a POST request with no [_csrf_token] form
    field that passes the referer stage, the supplied token is the value of
    the header read under the key [HTTP_X_CSRFTOKEN], the empty string when
    it is absent too.  If that header equals the request's [_csrf_token]
    cookie the request is let through, and when the comparison is reached
    the request is let through only then. *)
Theorem header_fallback urlparse self request w :
  method request = "POST" ->
  form request !! "_csrf_token" = None ->
  referer_check_passes urlparse request = true ->
  supplied_token request = dict_get (headers request) "HTTP_X_CSRFTOKEN" "" /\
  (forall token,
     headers request !! "HTTP_X_CSRFTOKEN" = Some token ->
     cookies request !! "_csrf_token" = Some token ->
     _before_request urlparse self request w = (Ret tt, w)) /\
  (reaches_comparison urlparse self request w = true ->
     (fst (_before_request urlparse self request w) = Ret tt <->
      dict_get (headers request) "HTTP_X_CSRFTOKEN" ""
        = dict_get (cookies request) "_csrf_token" "")) /\
  (headers request !! "HTTP_X_CSRFTOKEN" = None -> supplied_token request = "").
Proof.
  intros Hm Hf Href.
  pose proof (supplied_token_post_no_form _ Hm Hf) as Hsup.
  split; [exact Hsup|]. split; [|split].
  - intros token Hh Hc. apply before_request_allowed_if_match; [exact Href|].
    rewrite Hsup. unfold canonical_token, dict_get. now rewrite Hh, Hc.
  - intros Hreach. rewrite (before_request_allowed_iff _ _ _ _ Hreach), Hsup.
    reflexivity.
  - intros Hh. rewrite Hsup. unfold dict_get. now rewrite Hh.
Qed.

Lemma header_fallback_witness :
  let w := Sample.world ∅ [] in
  let request :=
    Sample.request "POST" true
      (<[ "HTTP_REFERER" := "https://example.com/form" ]>
         {[ "HTTP_X_CSRFTOKEN" := "abc123" ]})
      ∅ {[ "_csrf_token" := "abc123" ]} in
  supplied_token request = "abc123" /\
  _before_request Sample.urlparse Sample.csrf request w = (Ret tt, w).
Proof.
  intros w request.
  assert (Hm : method request = "POST") by reflexivity.
  assert (Hf : form request !! "_csrf_token" = None) by reflexivity.
  assert (Href : referer_check_passes Sample.urlparse request = true)
    by (vm_compute; reflexivity).
  destruct (header_fallback Sample.urlparse Sample.csrf request w Hm Hf Href)
    as (Hsup & Hallow & _ & _).
  split.
  - rewrite Hsup. vm_compute. reflexivity.
  - apply (Hallow "abc123"); vm_compute; reflexivity.
Defined.

(** C5, as stated, fails: a POST with no form token whose header token
    equals the token bound to the session is not let through when the
    request carries no [_csrf_token] cookie. *)
Lemma header_token_not_compared_with_session :
  let w := Sample.world {[ "_csrf_token" := "abc123" ]} [] in
  let request :=
    Sample.request "POST" false {[ "HTTP_X_CSRFTOKEN" := "abc123" ]} ∅ ∅ in
  method request = "POST" /\
  form request !! "_csrf_token" = None /\
  headers request !! "HTTP_X_CSRFTOKEN" = Some "abc123" /\
  session_token w = "abc123" /\
  supplied_token request = "abc123" /\
  fst (_before_request Sample.urlparse Sample.csrf request w) <> Ret tt /\
  fst (_before_request Sample.urlparse Sample.csrf_with_app request w)
    = Raise (HTTPException 403).
Proof. vm_compute. repeat split; discriminate. Qed.

(** ** Empty tokens *)

Lemma before_request_both_empty urlparse self request w :
  reaches_comparison urlparse self request w = true ->
  supplied_token request = "" -> canonical_token request = "" ->
  _before_request urlparse self request w = (Ret tt, w).
Proof.
  intros Hreach Hs Hc. rewrite (before_request_at_comparison _ _ _ _ Hreach).
  now rewrite Hs, Hc.
Qed.

(** C6 (the code departs from it).  A POST that reaches the comparison with
    no cookie, no form field and no header, so with both tokens empty, is let
    through by [_before_request]: the comparison of two empty strings
    succeeds, and nothing requires the tokens to be non-empty. *)
Theorem empty_tokens_are_let_through :
  let w := Sample.world ∅ [] in
  let request := Sample.request "POST" false ∅ ∅ ∅ in
  reaches_comparison Sample.urlparse Sample.csrf request w = true /\
  supplied_token request = "" /\
  canonical_token request = "" /\
  _before_request Sample.urlparse Sample.csrf request w = (Ret tt, w).
Proof. vm_compute. repeat split. Qed.

(** ** The referer stage *)

Lemma before_request_no_referer urlparse self request w :
  _csrf_disable self = false -> safe_method request = false ->
  py_in (endpoint_obj request) (_exempt_views w) = false ->
  is_secure request = true ->
  headers request !! "HTTP_REFERER" = None ->
  _before_request urlparse self request w =
    deny self REASON_NO_REFERER (path request) w.
Proof.
  unfold safe_method. intros Hdis Hsafe Hex Hsec Href.
  unfold _before_request. rewrite Hdis, Hsafe.
  change (negb false) with true. cbv iota.
  unfold mbind at 1. unfold M_bind, get_exempt_views. rewrite Hex, Hsec, Href.
  unfold deny, mbind, M_bind, warning, abort, raise, log_warning.
  destruct (app self); reflexivity.
Qed.

Lemma before_request_bad_referer urlparse self request w referer :
  _csrf_disable self = false -> safe_method request = false ->
  py_in (endpoint_obj request) (_exempt_views w) = false ->
  is_secure request = true ->
  headers request !! "HTTP_REFERER" = Some referer ->
  _same_origin urlparse referer (url_root request) = Ret false ->
  _before_request urlparse self request w =
    deny self (REASON_BAD_REFERER referer (url_root request)) (path request) w.
Proof.
  unfold safe_method. intros Hdis Hsafe Hex Hsec Href Horigin.
  unfold _before_request. rewrite Hdis, Hsafe.
  change (negb false) with true. cbv iota.
  unfold mbind at 1. unfold M_bind, get_exempt_views. rewrite Hex, Hsec, Href.
  unfold deny, mbind, M_bind, lift, warning, abort, raise, log_warning.
  rewrite Horigin. simpl.
  destruct (app self); reflexivity.
Qed.

Lemma same_origin_eval urlparse url1 url2 p1 p2 port1 port2 :
  urlparse url1 = Ret p1 -> urlparse url2 = Ret p2 ->
  port p1 = Ret port1 -> port p2 = Ret port2 ->
  _same_origin urlparse url1 url2 =
    Ret (bool_decide ((scheme p1, hostname p1, port1) = (scheme p2, hostname p2, port2))).
Proof.
  intros H1 H2 H3 H4. unfold _same_origin, mbind, result_bind.
  rewrite H1, H2, H3, H4. reflexivity.
Qed.

(** C4 (the code departs from it).  On an instance built by [SeaSurf(app)],
    a secure POST without the referer header, and one whose referer has
    another origin than [url_root], are not answered by the 403 and its
    logged reason: the refusal reads [self.app], which the class never
    assigns, and the hook fails with [AttributeError] with nothing logged.
    (With the attribute set by hand the same requests get the 403 and the
    reason; a referer of the same origin goes on to the comparison.) *)
Theorem referer_refusal_fails_without_app :
  let w := Sample.world ∅ [] in
  let token : gmap string string := {[ "_csrf_token" := "abc123" ]} in
  let no_referer := Sample.request "POST" true ∅ token token in
  let bad_referer :=
    Sample.request "POST" true
      {[ "HTTP_REFERER" := "https://evil.example.org/attack" ]} token token in
  let good_referer :=
    Sample.request "POST" true
      {[ "HTTP_REFERER" := "https://example.com/form" ]} token token in
  app Sample.csrf = None /\
  _before_request Sample.urlparse Sample.csrf no_referer w
    = (Raise (AttributeError "app"), w) /\
  _before_request Sample.urlparse Sample.csrf bad_referer w
    = (Raise (AttributeError "app"), w) /\
  _before_request Sample.urlparse Sample.csrf good_referer w = (Ret tt, w) /\
  fst (_before_request Sample.urlparse Sample.csrf_with_app no_referer w)
    = Raise (HTTPException 403) /\
  logger (snd (_before_request Sample.urlparse Sample.csrf_with_app no_referer w))
    = ["Forbidden (Referer checking failed: no referer.): /some_view"] /\
  fst (_before_request Sample.urlparse Sample.csrf_with_app bad_referer w)
    = Raise (HTTPException 403) /\
  logger (snd (_before_request Sample.urlparse Sample.csrf_with_app bad_referer w))
    = ["Forbidden (Referer checking failed: https://evil.example.org/attack does not match https://example.com/.): /some_view"].
Proof. vm_compute. repeat split. Qed.

(** ** Exempt views *)

Lemma exempt_appends view w :
  exempt view w =
    (Ret view,
     {| session := session w; _exempt_views := _exempt_views w ++ [view];
        logger := logger w; random := random w |}).
Proof. reflexivity. Qed.

(** An endpoint is a name or [None], never a function: among views that are
    functions the membership test finds nothing. *)
Lemma endpoint_not_among_functions request views :
  Forall is_function views -> py_in (endpoint_obj request) views = false.
Proof.
  intros Hviews. unfold py_in. apply bool_decide_eq_false_2. intros Hin.
  rewrite Forall_forall in Hviews. specialize (Hviews _ Hin).
  unfold endpoint_obj in Hviews. destruct (endpoint request); exact Hviews.
Qed.

(** A name put in the list does exempt the endpoint of that name. *)
Lemma before_request_exempt_name urlparse self request w name :
  endpoint request = Some name -> PyStr name ∈ _exempt_views w ->
  _before_request urlparse self request w = (Ret tt, w).
Proof.
  intros He Hin. unfold _before_request.
  destruct (_csrf_disable self); [reflexivity|].
  destruct (bool_decide _); [reflexivity|].
  change (negb false) with true. cbv iota.
  unfold mbind at 1. unfold M_bind, get_exempt_views.
  unfold py_in, endpoint_obj. rewrite He.
  rewrite bool_decide_eq_true_2 by exact Hin. reflexivity.
Qed.

(** C3 (the code departs from it).  After [exempt(some_view)], with
    [some_view] the view function of the endpoint "some_view", a POST to that
    endpoint which supplies no token is still validated and not let through:
    the hook looks for the endpoint's name among the registered function
    objects and finds nothing. *)
Theorem exempt_view_is_still_validated :
  let w := snd (exempt Sample.some_view (Sample.world ∅ [])) in
  let request :=
    Sample.request "POST" false ∅ ∅ {[ "_csrf_token" := "abc123" ]} in
  view_functions Sample.flask !! "some_view" = Some Sample.some_view /\
  endpoint request = Some "some_view" /\
  _exempt_views w = [Sample.some_view] /\
  py_in (endpoint_obj request) (_exempt_views w) = false /\
  supplied_token request = "" /\
  _before_request Sample.urlparse Sample.csrf request w
    = (Raise (AttributeError "app"), w) /\
  fst (_before_request Sample.urlparse Sample.csrf_with_app request w)
    = Raise (HTTPException 403) /\
  logger (snd (_before_request Sample.urlparse Sample.csrf_with_app request w))
    = ["Forbidden (CSRF token missing or incorrect.): /some_view"].
Proof. vm_compute. repeat split. Qed.

(** ** The cookie on the response *)

Lemma after_request_without_attribute self response w :
  "_csrf_token" ∉ session_attrs (session w) ->
  _after_request self response w = (Ret response, w).
Proof.
  intros Hattr. unfold _after_request, mbind, M_bind, get_session, hasattr.
  rewrite bool_decide_eq_false_2 by exact Hattr. reflexivity.
Qed.

Lemma after_request_with_attribute self response w token :
  "_csrf_token" ∈ session_attrs (session w) ->
  session_items (session w) !! "_csrf_token" = Some token ->
  _after_request self response w =
    (Ret (vary_add "Cookie"
            (set_cookie "_csrf_token" token (Some (_csrf_timeout self)) response)),
     w).
Proof.
  intros Hattr Hitem. unfold _after_request, mbind, M_bind, get_session, hasattr.
  rewrite bool_decide_eq_true_2 by exact Hattr. simpl. rewrite Hitem. reflexivity.
Qed.

(** [_set_token] binds the token as a key: the attributes of the session
    are what they were. *)
Lemma set_token_keeps_attributes sha1_hexdigest self w :
  session_attrs (session (snd (_set_token sha1_hexdigest self w)))
    = session_attrs (session w).
Proof.
  destruct (session_items (session w) !! "_csrf_token") as [token|] eqn:Hw.
  - now rewrite (set_token_bound _ _ _ _ Hw).
  - destruct (set_token_fresh sha1_hexdigest self w Hw)
      as (token & w' & _ & Hset & Hattrs & _).
    now rewrite Hset.
Qed.

(** C2 (the code departs from it).  With the token "abc123" bound to the
    session, [_after_request] returns the response as it received it, with no
    cookie and no [Vary] entry: it tests [hasattr(session, '_csrf_token')],
    an attribute, where the token is bound as a key.  The same holds right
    after [_set_token] has bound a fresh token. *)
Theorem after_request_misses_bound_token :
  let w := Sample.world {[ "_csrf_token" := "abc123" ]} [] in
  let digest := fun s => "sha1(" +:+ s +:+ ")" in
  let w' := snd (_set_token digest Sample.csrf (Sample.world ∅ [])) in
  session_items (session w) !! "_csrf_token" = Some "abc123" /\
  _after_request Sample.csrf Sample.response w = (Ret Sample.response, w) /\
  set_cookies Sample.response = [] /\
  session_items (session w') !! "_csrf_token" = Some "sha1(1000s3cr3t)" /\
  _after_request Sample.csrf Sample.response w' = (Ret Sample.response, w').
Proof. vm_compute. repeat split. Qed.

(** * Further properties of the module *)

(** ** [_before_request], stage by stage *)

Lemma before_request_unfold urlparse self request w :
  _before_request urlparse self request w =
    if _csrf_disable self then (Ret tt, w)
    else if safe_method request then (Ret tt, w)
    else if py_in (endpoint_obj request) (_exempt_views w) then (Ret tt, w)
    else if is_secure request then
      match headers request !! "HTTP_REFERER" with
      | None => deny self REASON_NO_REFERER (path request) w
      | Some referer =>
          match _same_origin urlparse referer (url_root request) with
          | Raise e => (Raise e, w)
          | Ret false =>
              deny self (REASON_BAD_REFERER referer (url_root request))
                   (path request) w
          | Ret true => token_stage self request w
          end
      end
    else token_stage self request w.
Proof.
  unfold _before_request, safe_method, token_stage, supplied_token,
    canonical_token, deny.
  destruct (_csrf_disable self); [reflexivity|].
  destruct (bool_decide _); [reflexivity|].
  change (negb false) with true. cbv iota.
  unfold mbind, M_bind, get_exempt_views, lift, mret, M_ret, warning, abort,
    raise, log_warning.
  destruct (py_in _ _); [reflexivity|].
  destruct (is_secure request).
  - destruct (headers request !! "HTTP_REFERER") as [referer|];
      [|destruct (app self); reflexivity].
    destruct (_same_origin urlparse referer (url_root request)) as [[|]|];
      simpl; try reflexivity.
    + destruct (_constant_time_compare _ _); simpl; [reflexivity|].
      destruct (app self); reflexivity.
    + destruct (app self); reflexivity.
  - destruct (_constant_time_compare _ _); simpl; [reflexivity|].
    destruct (app self); reflexivity.
Qed.

Lemma deny_cases self reason path w :
  (app self = None /\ deny self reason path w = (Raise (AttributeError "app"), w)) \/
  (is_Some (app self) /\
   deny self reason path w =
     (Raise (HTTPException 403), logged (forbidden_message reason path) w)).
Proof.
  destruct (app self) as [flask|] eqn:Happ.
  - right. split; [eauto|]. apply (deny_with_app _ _ _ _ flask Happ).
  - left. split; [reflexivity|]. now apply deny_without_app.
Qed.

(** ** [_same_origin] *)

Lemma same_origin_of_origins urlparse a b oa ob :
  origin urlparse a = Ret oa -> origin urlparse b = Ret ob ->
  _same_origin urlparse a b = Ret (bool_decide (oa = ob)).
Proof.
  unfold origin, _same_origin, mbind, result_bind, mret, result_ret.
  destruct (urlparse a) as [pa|]; [|discriminate].
  destruct (urlparse b) as [pb|]; [|destruct (port pa); discriminate].
  destruct (port pa) as [xa|]; [|discriminate].
  destruct (port pb) as [xb|]; [|discriminate].
  intros [= <-] [= <-]. reflexivity.
Qed.

(** X1. On URLs that parse, [_same_origin] compares the triples of scheme,
    host name and port and nothing else, so it is reflexive, symmetric and
    transitive there. *)
Theorem same_origin_equivalence urlparse a b c oa ob oc :
  origin urlparse a = Ret oa ->
  origin urlparse b = Ret ob ->
  origin urlparse c = Ret oc ->
  _same_origin urlparse a b = Ret (bool_decide (oa = ob)) /\
  _same_origin urlparse a a = Ret true /\
  _same_origin urlparse b a = _same_origin urlparse a b /\
  (_same_origin urlparse a b = Ret true ->
   _same_origin urlparse b c = Ret true ->
   _same_origin urlparse a c = Ret true).
Proof.
  intros Ha Hb Hc.
  rewrite (same_origin_of_origins _ _ _ _ _ Ha Hb),
    (same_origin_of_origins _ _ _ _ _ Ha Ha),
    (same_origin_of_origins _ _ _ _ _ Hb Ha),
    (same_origin_of_origins _ _ _ _ _ Hb Hc),
    (same_origin_of_origins _ _ _ _ _ Ha Hc).
  split; [reflexivity|]. split; [now rewrite bool_decide_eq_true_2|]. split.
  - destruct (decide (oa = ob)) as [Heq|Hne].
    + rewrite !bool_decide_eq_true_2; auto.
    + rewrite !bool_decide_eq_false_2; auto.
  - intros [= H1] [= H2]. apply bool_decide_eq_true_1 in H1, H2.
    rewrite bool_decide_eq_true_2; congruence.
Qed.

Lemma same_origin_equivalence_witness :
  _same_origin Sample.urlparse "https://example.com/form" "https://example.com/"
    = Ret true /\
  _same_origin Sample.urlparse "https://example.com/form"
    "https://example.com:8443/form" = Ret false.
Proof.
  pose (o := ("https", Some "example.com", @None Z)).
  pose (o' := ("https", Some "example.com", Some 8443)).
  assert (Ha : origin Sample.urlparse "https://example.com/form" = Ret o)
    by reflexivity.
  assert (Hb : origin Sample.urlparse "https://example.com/" = Ret o)
    by reflexivity.
  assert (Hc : origin Sample.urlparse "https://example.com:8443/form" = Ret o')
    by reflexivity.
  split.
  - exact (proj1 (same_origin_equivalence Sample.urlparse _ _ _ o o o' Ha Hb Hc)).
  - exact (proj1 (same_origin_equivalence Sample.urlparse _ _ _ o o' o Ha Hc Hb)).
Defined.

(** X2. [_same_origin] returns a boolean exactly when both URLs parse and
    both ports can be read; in every other case it raises. *)
Theorem same_origin_defined_iff urlparse a b :
  (exists same, _same_origin urlparse a b = Ret same) <->
  (exists oa ob, origin urlparse a = Ret oa /\ origin urlparse b = Ret ob).
Proof.
  split.
  - intros [same H]. revert H.
    unfold origin, _same_origin, mbind, result_bind, mret, result_ret.
    destruct (urlparse a) as [pa|]; [|discriminate].
    destruct (urlparse b) as [pb|]; [|discriminate].
    destruct (port pa) as [xa|]; [|discriminate].
    destruct (port pb) as [xb|]; [|discriminate].
    intros _. eauto.
  - intros (oa & ob & Ha & Hb). rewrite (same_origin_of_origins _ _ _ _ _ Ha Hb).
    eauto.
Qed.

Lemma same_origin_defined_iff_witness :
  exists same,
    _same_origin Sample.urlparse "https://evil.example.org/attack"
      "https://example.com/" = Ret same.
Proof.
  apply (proj2 (same_origin_defined_iff Sample.urlparse
                  "https://evil.example.org/attack" "https://example.com/")).
  eexists _, _. split; reflexivity.
Defined.

(** ** What [_before_request] can do *)

(** X3. [_before_request] either leaves the whole state as it was, or it
    raises the 403 after one warning "Forbidden (reason): path" was logged,
    the reason being the missing referer, the mismatching referer or the
    bad token; the second case needs the attribute [app]. *)
Theorem before_request_outcomes urlparse self request w :
  snd (_before_request urlparse self request w) = w \/
  (fst (_before_request urlparse self request w) = Raise (HTTPException 403) /\
   is_Some (app self) /\
   exists reason,
     (reason = REASON_NO_REFERER \/ reason = REASON_BAD_TOKEN \/
      exists referer,
        headers request !! "HTTP_REFERER" = Some referer /\
        reason = REASON_BAD_REFERER referer (url_root request)) /\
     snd (_before_request urlparse self request w)
       = logged (forbidden_message reason (path request)) w).
Proof.
  assert (Hdeny : forall reason,
    (reason = REASON_NO_REFERER \/ reason = REASON_BAD_TOKEN \/
      exists referer,
        headers request !! "HTTP_REFERER" = Some referer /\
        reason = REASON_BAD_REFERER referer (url_root request)) ->
    snd (deny self reason (path request) w) = w \/
    (fst (deny self reason (path request) w) = Raise (HTTPException 403) /\
     is_Some (app self) /\
     exists reason',
       (reason' = REASON_NO_REFERER \/ reason' = REASON_BAD_TOKEN \/
        exists referer,
          headers request !! "HTTP_REFERER" = Some referer /\
          reason' = REASON_BAD_REFERER referer (url_root request)) /\
       snd (deny self reason (path request) w)
         = logged (forbidden_message reason' (path request)) w)).
  { intros reason Hreason.
    destruct (deny_cases self reason (path request) w) as [[_ ->]|[Happ ->]].
    - left. reflexivity.
    - right. split; [reflexivity|]. split; [exact Happ|].
      exists reason. split; [exact Hreason | reflexivity]. }
  assert (Htok :
    snd (token_stage self request w) = w \/
    (fst (token_stage self request w) = Raise (HTTPException 403) /\
     is_Some (app self) /\
     exists reason',
       (reason' = REASON_NO_REFERER \/ reason' = REASON_BAD_TOKEN \/
        exists referer,
          headers request !! "HTTP_REFERER" = Some referer /\
          reason' = REASON_BAD_REFERER referer (url_root request)) /\
       snd (token_stage self request w)
         = logged (forbidden_message reason' (path request)) w)).
  { unfold token_stage. destruct (_constant_time_compare _ _).
    - left. reflexivity.
    - apply Hdeny. right. left. reflexivity. }
  rewrite before_request_unfold.
  destruct (_csrf_disable self); [left; reflexivity|].
  destruct (safe_method request); [left; reflexivity|].
  destruct (py_in _ _); [left; reflexivity|].
  destruct (is_secure request); [|exact Htok].
  destruct (headers request !! "HTTP_REFERER") as [referer|] eqn:Href.
  - destruct (_same_origin urlparse referer (url_root request)) as [[|]|].
    + exact Htok.
    + apply Hdeny. right. right. exists referer. split; reflexivity.
    + left. reflexivity.
  - apply Hdeny. left. reflexivity.
Qed.

(** X4. The instance built by [SeaSurf(app)] never logs and never changes
    the state: after [_before_request] the state is what it was, whatever
    the request and the outcome. *)
Theorem new_instance_never_logs urlparse flask request w :
  snd (_before_request urlparse (SeaSurf_new flask) request w) = w.
Proof.
  assert (Hdeny : forall reason,
    snd (deny (SeaSurf_new flask) reason (path request) w) = w).
  { intros reason. now rewrite deny_without_app. }
  rewrite before_request_unfold. unfold token_stage.
  destruct (_csrf_disable _); [reflexivity|].
  destruct (safe_method request); [reflexivity|].
  destruct (py_in _ _); [reflexivity|].
  destruct (is_secure request).
  - destruct (headers request !! "HTTP_REFERER") as [referer|]; [|apply Hdeny].
    destruct (_same_origin urlparse referer (url_root request)) as [[|]|];
      [|apply Hdeny|reflexivity].
    destruct (_constant_time_compare _ _); [reflexivity | apply Hdeny].
  - destruct (_constant_time_compare _ _); [reflexivity | apply Hdeny].
Qed.

(** ** Refusals when the attribute [app] is set *)

(** X5. With [self.app] set, a secure request with an unsafe method and a
    non-exempt endpoint is refused with the 403 when it has no referer, and
    when its referer is of another origin than [url_root]; the warning
    logged gives the reason, in the second case with both URLs, and the
    path. *)
Theorem referer_refusals_with_app urlparse self flask request w :
  app self = Some flask ->
  _csrf_disable self = false ->
  safe_method request = false ->
  py_in (endpoint_obj request) (_exempt_views w) = false ->
  is_secure request = true ->
  match headers request !! "HTTP_REFERER" with
  | None =>
      _before_request urlparse self request w =
        (Raise (HTTPException 403),
         logged ("Forbidden (Referer checking failed: no referer.): "
                 +:+ path request) w)
  | Some referer =>
      _same_origin urlparse referer (url_root request) = Ret false ->
      _before_request urlparse self request w =
        (Raise (HTTPException 403),
         logged (forbidden_message
                   ("Referer checking failed: " +:+ referer
                    +:+ " does not match " +:+ url_root request +:+ ".")
                   (path request)) w)
  end.
Proof.
  intros Happ Hdis Hsafe Hex Hsec.
  destruct (headers request !! "HTTP_REFERER") as [referer|] eqn:Href.
  - intros Horigin.
    rewrite (before_request_bad_referer _ _ _ _ _ Hdis Hsafe Hex Hsec Href Horigin).
    rewrite (deny_with_app _ _ _ _ _ Happ). reflexivity.
  - rewrite (before_request_no_referer _ _ _ _ Hdis Hsafe Hex Hsec Href).
    rewrite (deny_with_app _ _ _ _ _ Happ). reflexivity.
Qed.

Lemma referer_refusals_with_app_witness :
  let w := Sample.world ∅ [] in
  let token : gmap string string := {[ "_csrf_token" := "abc123" ]} in
  let no_referer := Sample.request "POST" true ∅ token token in
  let bad_referer :=
    Sample.request "POST" true
      {[ "HTTP_REFERER" := "https://evil.example.org/attack" ]} token token in
  _before_request Sample.urlparse Sample.csrf_with_app no_referer w =
    (Raise (HTTPException 403),
     logged "Forbidden (Referer checking failed: no referer.): /some_view" w) /\
  _before_request Sample.urlparse Sample.csrf_with_app bad_referer w =
    (Raise (HTTPException 403),
     logged "Forbidden (Referer checking failed: https://evil.example.org/attack does not match https://example.com/.): /some_view" w).
Proof.
  intros w token no_referer bad_referer. split.
  - exact (referer_refusals_with_app Sample.urlparse Sample.csrf_with_app
             Sample.flask no_referer w eq_refl eq_refl eq_refl eq_refl eq_refl).
  - exact (referer_refusals_with_app Sample.urlparse Sample.csrf_with_app
             Sample.flask bad_referer w eq_refl eq_refl eq_refl eq_refl eq_refl
             eq_refl).
Defined.

(** X6. With [self.app] set, a request that reaches the comparison with a
    supplied token other than its [_csrf_token] cookie is refused with the
    403, and the warning "Forbidden (CSRF token missing or incorrect.): path"
    is logged. *)
Theorem token_refusal_with_app urlparse self flask request w :
  app self = Some flask ->
  reaches_comparison urlparse self request w = true ->
  supplied_token request <> dict_get (cookies request) "_csrf_token" "" ->
  _before_request urlparse self request w =
    (Raise (HTTPException 403),
     logged ("Forbidden (CSRF token missing or incorrect.): " +:+ path request) w).
Proof.
  intros Happ Hreach Hne.
  rewrite (before_request_at_comparison _ _ _ _ Hreach).
  destruct (_constant_time_compare _ _) eqn:Hcmp.
  - apply ctc_true_iff in Hcmp. contradiction.
  - rewrite (deny_with_app _ _ _ _ _ Happ). reflexivity.
Qed.

Lemma token_refusal_with_app_witness :
  let w := Sample.world ∅ [] in
  let request :=
    Sample.request "PUT" false {[ "HTTP_X_CSRFTOKEN" := "abc124" ]} ∅
      {[ "_csrf_token" := "abc123" ]} in
  _before_request Sample.urlparse Sample.csrf_with_app request w =
    (Raise (HTTPException 403),
     logged "Forbidden (CSRF token missing or incorrect.): /some_view" w).
Proof.
  intros w request.
  apply (token_refusal_with_app Sample.urlparse Sample.csrf_with_app Sample.flask
           request w eq_refl).
  - vm_compute. reflexivity.
  - vm_compute. discriminate.
Defined.

(** X7. When the referer of a secure request cannot be compared, because one
    of the two URLs does not parse or has a port that cannot be read, the
    exception of [_same_origin] leaves [_before_request] as it is: the
    request is neither let through nor refused with the 403, and nothing is
    logged. *)
Theorem referer_error_propagates urlparse self request w referer e :
  _csrf_disable self = false ->
  safe_method request = false ->
  py_in (endpoint_obj request) (_exempt_views w) = false ->
  is_secure request = true ->
  headers request !! "HTTP_REFERER" = Some referer ->
  _same_origin urlparse referer (url_root request) = Raise e ->
  _before_request urlparse self request w = (Raise e, w).
Proof.
  intros Hdis Hsafe Hex Hsec Href Horigin.
  rewrite before_request_unfold, Hdis, Hsafe, Hex, Hsec, Href, Horigin.
  reflexivity.
Qed.

Lemma referer_error_propagates_witness :
  let w := Sample.world ∅ [] in
  let token : gmap string string := {[ "_csrf_token" := "abc123" ]} in
  let request :=
    Sample.request "POST" true
      {[ "HTTP_REFERER" := "https://example.com:x/" ]} token token in
  _before_request Sample.urlparse Sample.csrf_with_app request w
    = (Raise ValueError, w).
Proof.
  intros w token request.
  exact (referer_error_propagates Sample.urlparse Sample.csrf_with_app request w
           "https://example.com:x/" ValueError
           eq_refl eq_refl eq_refl eq_refl eq_refl eq_refl).
Defined.

(** ** The configuration *)

(** X8. [init_app] switches validation off exactly when [CSRF_DISABLE] is
    true, or is not configured while [TESTING] is true: [CSRF_DISABLE] takes
    precedence over [TESTING].  With validation off every request is let
    through and the state is unchanged. *)
Theorem config_switches_validation urlparse self flask :
  (_csrf_disable (init_app self flask) = true <->
     CSRF_DISABLE (config flask) = Some true \/
     (CSRF_DISABLE (config flask) = None /\ TESTING (config flask) = Some true)) /\
  (_csrf_disable (init_app self flask) = true ->
   forall request w,
     _before_request urlparse (init_app self flask) request w = (Ret tt, w)).
Proof.
  split.
  - unfold init_app. simpl.
    destruct (CSRF_DISABLE (config flask)) as [[|]|];
      destruct (TESTING (config flask)) as [[|]|]; simpl;
      split; intros H; try discriminate; try reflexivity; auto;
      destruct H as [H|[H1 H2]]; discriminate.
  - intros Hdis request w. rewrite before_request_unfold, Hdis. reflexivity.
Qed.

Lemma config_switches_validation_witness :
  let testing :=
    {| config := {| SECRET_KEY := Some "s3cr3t"; CSRF_DISABLE := None;
                    TESTING := Some true; CSRF_COOKIE_TIMEOUT := None |};
       view_functions := ∅ |} in
  let request := Sample.request "POST" true ∅ ∅ ∅ in
  _before_request Sample.urlparse (SeaSurf_new testing) request (Sample.world ∅ [])
    = (Ret tt, Sample.world ∅ []).
Proof.
  intros testing request.
  apply (proj2 (config_switches_validation Sample.urlparse _ testing)).
  reflexivity.
Defined.

(** ** Exemptions *)

(** X9. [exempt] returns the view it was given and appends it to the list of
    exempt views: the earlier entries stay, in order, the list grows by one
    at each call (also for a view that is already in it), and the session,
    the logger and the random source are untouched. *)
Theorem exempt_only_appends view w :
  fst (exempt view w) = Ret view /\
  _exempt_views (snd (exempt view w)) = (_exempt_views w ++ [view])%list /\
  (forall v : pyobj,
     v ∈ _exempt_views w -> v ∈ _exempt_views (snd (exempt view w))) /\
  view ∈ _exempt_views (snd (exempt view w)) /\
  List.length (_exempt_views (snd (exempt view (snd (exempt view w)))))
    = S (S (List.length (_exempt_views w))) /\
  session (snd (exempt view w)) = session w /\
  logger (snd (exempt view w)) = logger w /\
  random (snd (exempt view w)) = random w.
Proof.
  rewrite !exempt_appends. simpl. repeat split.
  - intros v Hv. apply elem_of_app. now left.
  - apply elem_of_app. right. constructor.
  - rewrite !length_app. simpl. lia.
Qed.

Lemma exempt_only_appends_witness :
  PyStr "other" ∈ _exempt_views
    (snd (exempt Sample.some_view (Sample.world ∅ [PyStr "other"]))).
Proof.
  apply (exempt_only_appends Sample.some_view (Sample.world ∅ [PyStr "other"])).
  constructor.
Defined.

(** X10. Registering the name of an endpoint exempts it: after
    [exempt(name)] every request to that endpoint is let through, with any
    method, secure or not, with or without referer and tokens. *)
Theorem exempt_by_name_lets_through urlparse self request w name :
  endpoint request = Some name ->
  _before_request urlparse self request (snd (exempt (PyStr name) w))
    = (Ret tt, snd (exempt (PyStr name) w)).
Proof.
  intros He. apply (before_request_exempt_name _ _ _ _ name He).
  rewrite exempt_appends. simpl. apply elem_of_app. right. constructor.
Qed.

Lemma exempt_by_name_lets_through_witness :
  let w := snd (exempt (PyStr "some_view") (Sample.world ∅ [])) in
  let request := Sample.request "POST" true ∅ ∅ {[ "_csrf_token" := "abc123" ]} in
  _before_request Sample.urlparse Sample.csrf request w = (Ret tt, w).
Proof.
  intros w request.
  exact (exempt_by_name_lets_through Sample.urlparse Sample.csrf request
           (Sample.world ∅ []) "some_view" eq_refl).
Defined.

(** X11. Function objects in the list of exempt views exempt nothing: when
    every registered view is a function, [_before_request] decides as it
    does with an empty list. *)
Theorem function_exemptions_have_no_effect urlparse self request w :
  Forall is_function (_exempt_views w) ->
  fst (_before_request urlparse self request w)
    = fst (_before_request urlparse self request (with_exempt_views [] w)).
Proof.
  intros Hviews. rewrite !before_request_unfold.
  rewrite (endpoint_not_among_functions _ _ Hviews).
  replace (py_in (endpoint_obj request) (_exempt_views (with_exempt_views [] w)))
    with false by reflexivity.
  assert (Hdeny : forall reason,
    fst (deny self reason (path request) w)
      = fst (deny self reason (path request) (with_exempt_views [] w))).
  { intros reason. unfold deny, warning. destruct (app self); reflexivity. }
  assert (Htok : fst (token_stage self request w)
                 = fst (token_stage self request (with_exempt_views [] w))).
  { unfold token_stage. destruct (_constant_time_compare _ _);
      [reflexivity | apply Hdeny]. }
  destruct (_csrf_disable self); [reflexivity|].
  destruct (safe_method request); [reflexivity|].
  destruct (is_secure request); [|exact Htok].
  destruct (headers request !! "HTTP_REFERER") as [referer|]; [|apply Hdeny].
  destruct (_same_origin urlparse referer (url_root request)) as [[|]|];
    [exact Htok | apply Hdeny | reflexivity].
Qed.

Lemma function_exemptions_have_no_effect_witness :
  let request := Sample.request "POST" false ∅ ∅ {[ "_csrf_token" := "abc123" ]} in
  fst (_before_request Sample.urlparse Sample.csrf_with_app request
         (Sample.world ∅ [Sample.some_view; PyFunction 2]))
    = fst (_before_request Sample.urlparse Sample.csrf_with_app request
             (with_exempt_views [] (Sample.world ∅ [Sample.some_view; PyFunction 2]))).
Proof.
  intros request. apply function_exemptions_have_no_effect.
  repeat constructor.
Defined.

(** ** Which parts of the request are read *)

(** X12. A request that is not secure is never checked for its referer: the
    outcome does not depend on the URL parser, on [url_root], or on any
    header other than [HTTP_X_CSRFTOKEN]. *)
Theorem plaintext_ignores_referer urlparse urlparse' self request w hdrs root :
  is_secure request = false ->
  hdrs !! "HTTP_X_CSRFTOKEN" = headers request !! "HTTP_X_CSRFTOKEN" ->
  _before_request urlparse' self (with_url_root root (with_headers hdrs request)) w
    = _before_request urlparse self request w.
Proof.
  intros Hsec Hh. rewrite !before_request_unfold.
  unfold token_stage, supplied_token, canonical_token, safe_method, endpoint_obj,
    dict_get. simpl. rewrite Hsec, Hh. reflexivity.
Qed.

Lemma plaintext_ignores_referer_witness :
  let w := Sample.world ∅ [] in
  let token : gmap string string := {[ "_csrf_token" := "abc123" ]} in
  let request := Sample.request "POST" false ∅ token token in
  _before_request (fun _ => Raise ValueError) Sample.csrf
    (with_url_root "https://other.example.net/"
       (with_headers {[ "HTTP_REFERER" := "https://evil.example.org/attack" ]} request))
    w
  = _before_request Sample.urlparse Sample.csrf request w.
Proof.
  intros w token request.
  apply plaintext_ignores_referer; reflexivity.
Defined.

(** X13. For a method other than POST the form is not read: the outcome is
    the same with any form, so a token in the form of a PUT or DELETE counts
    for nothing. *)
Theorem non_post_ignores_form urlparse self request w frm :
  method request <> "POST" ->
  _before_request urlparse self (with_form frm request) w
    = _before_request urlparse self request w.
Proof.
  intros Hm. rewrite !before_request_unfold.
  unfold token_stage, supplied_token, canonical_token, safe_method, endpoint_obj.
  simpl. destruct (String.eqb_spec (method request) "POST"); [contradiction|].
  reflexivity.
Qed.

Lemma non_post_ignores_form_witness :
  let w := Sample.world ∅ [] in
  let token : gmap string string := {[ "_csrf_token" := "abc123" ]} in
  let request := Sample.request "PUT" false ∅ ∅ token in
  _before_request Sample.urlparse Sample.csrf_with_app (with_form token request) w
    = _before_request Sample.urlparse Sample.csrf_with_app request w /\
  fst (_before_request Sample.urlparse Sample.csrf_with_app (with_form token request) w)
    = Raise (HTTPException 403).
Proof.
  intros w token request.
  assert (Hm : method request <> "POST") by discriminate.
  split.
  - exact (non_post_ignores_form Sample.urlparse Sample.csrf_with_app request w
             token Hm).
  - rewrite (non_post_ignores_form Sample.urlparse Sample.csrf_with_app request w
               token Hm).
    reflexivity.
Defined.

(** X14. In a POST, an empty [_csrf_token] form field counts as an absent
    one: the outcome is the same as without the field, the header being read
    in both cases. *)
Theorem empty_form_token_falls_back urlparse self request w :
  method request = "POST" ->
  form request !! "_csrf_token" = Some "" ->
  _before_request urlparse self request w
    = _before_request urlparse self
        (with_form (delete "_csrf_token" (form request)) request) w.
Proof.
  intros Hm Hf. rewrite !before_request_unfold.
  unfold token_stage, supplied_token, canonical_token, safe_method, endpoint_obj,
    dict_get. simpl. rewrite Hm, Hf, lookup_delete_eq. reflexivity.
Qed.

Lemma empty_form_token_falls_back_witness :
  let w := Sample.world ∅ [] in
  let token : gmap string string := {[ "_csrf_token" := "abc123" ]} in
  let request :=
    Sample.request "POST" false {[ "HTTP_X_CSRFTOKEN" := "abc123" ]}
      {[ "_csrf_token" := "" ]} token in
  _before_request Sample.urlparse Sample.csrf request w = (Ret tt, w).
Proof.
  intros w token request.
  rewrite (empty_form_token_falls_back Sample.urlparse Sample.csrf request w
             eq_refl eq_refl).
  reflexivity.
Defined.

(** X15. In a POST with a non-empty [_csrf_token] form field the header
    [HTTP_X_CSRFTOKEN] is not read: the outcome is the same with any headers
    that keep the referer. *)
Theorem form_token_overrides_header urlparse self request w token hdrs :
  method request = "POST" ->
  form request !! "_csrf_token" = Some token ->
  token <> "" ->
  hdrs !! "HTTP_REFERER" = headers request !! "HTTP_REFERER" ->
  _before_request urlparse self (with_headers hdrs request) w
    = _before_request urlparse self request w.
Proof.
  intros Hm Hf Hne Hh. rewrite !before_request_unfold.
  unfold token_stage, supplied_token, canonical_token, safe_method, endpoint_obj,
    dict_get. simpl. rewrite Hm, Hf, Hh. simpl.
  destruct (String.eqb_spec token ""); [contradiction|]. reflexivity.
Qed.

Lemma form_token_overrides_header_witness :
  let w := Sample.world ∅ [] in
  let good : gmap string string := {[ "_csrf_token" := "abc123" ]} in
  let bad : gmap string string := {[ "_csrf_token" := "abc124" ]} in
  let request := Sample.request "POST" false ∅ bad good in
  _before_request Sample.urlparse Sample.csrf_with_app
    (with_headers {[ "HTTP_X_CSRFTOKEN" := "abc123" ]} request) w
  = _before_request Sample.urlparse Sample.csrf_with_app request w.
Proof.
  intros w good bad request.
  apply (form_token_overrides_header Sample.urlparse Sample.csrf_with_app request w
           "abc124"); try reflexivity. discriminate.
Defined.

(** ** Tokens *)





Lemma set_token_fresh_eval sha1_hexdigest self w :
  session_items (session w) !! "_csrf_token" = None ->
  _set_token sha1_hexdigest self w =
    (Ret (sha1_hexdigest
            (pretty (next_draw w `mod` _MAX_CSRF_KEY) +:+ _secret_key self)),
     {| session :=
          {| session_attrs := session_attrs (session w);
             session_items :=
               <["_csrf_token" :=
                   sha1_hexdigest
                     (pretty (next_draw w `mod` _MAX_CSRF_KEY) +:+ _secret_key self)]>
                 (session_items (session w)) |};
        _exempt_views := _exempt_views w;
        logger := logger w;
        random := random (advance w) |}).
Proof.
  intros H. unfold _set_token. unfold mbind at 1. unfold M_bind.
  rewrite generate_token_eval.
  unfold mbind, M_bind, get_session. simpl.
  rewrite H. rewrite bool_decide_eq_true_2 by reflexivity.
  unfold put_session. simpl. rewrite lookup_insert_eq.
  rewrite Z.sub_0_r. reflexivity.
Qed.



(** ** The response *)

(** X18. [_after_request] never changes the state.  Without the attribute
    [_csrf_token] on the session it returns the response as it is; with the
    attribute but without the key it raises [KeyError]; with both it keeps
    the status and the cookies already set, appends one cookie
    [_csrf_token] with the session's token and the timeout as max-age, and
    adds "Cookie" to [Vary], keeping the entries already there. *)
Theorem after_request_cases self response w :
  snd (_after_request self response w) = w /\
  match hasattr (session w) "_csrf_token",
        session_items (session w) !! "_csrf_token" with
  | false, _ => fst (_after_request self response w) = Ret response
  | true, None => fst (_after_request self response w) = Raise (KeyError "_csrf_token")
  | true, Some token =>
      exists response',
        fst (_after_request self response w) = Ret response' /\
        status_code response' = status_code response /\
        set_cookies response' =
          (set_cookies response ++
           [{| cookie_key := "_csrf_token"; cookie_value := token;
               cookie_max_age := Some (_csrf_timeout self) |}])%list /\
        "Cookie" ∈ vary response' /\
        vary response ⊆ vary response'
  end.
Proof.
  unfold _after_request, mbind, M_bind, get_session. simpl.
  destruct (hasattr (session w) "_csrf_token"); simpl; [|split; reflexivity].
  destruct (session_items (session w) !! "_csrf_token") as [token|]; simpl;
    [|split; reflexivity].
  split; [reflexivity|]. eexists. split; [reflexivity|]. simpl.
  repeat split; set_solver.
Qed.

(** X19. The max-age of the cookie comes from the configuration: it is
    [CSRF_COOKIE_TIMEOUT] when that is configured, and 432000 seconds, five
    days, when it is not. *)
Theorem cookie_max_age_from_config self flask response w token :
  hasattr (session w) "_csrf_token" = true ->
  session_items (session w) !! "_csrf_token" = Some token ->
  exists response',
    fst (_after_request (init_app self flask) response w) = Ret response' /\
    last (set_cookies response') =
      Some {| cookie_key := "_csrf_token"; cookie_value := token;
              cookie_max_age :=
                Some (match CSRF_COOKIE_TIMEOUT (config flask) with
                      | Some timeout => timeout
                      | None => 432000
                      end) |}.
Proof.
  intros Hattr Hitem.
  unfold _after_request, mbind, M_bind, get_session. simpl.
  rewrite Hattr, Hitem. simpl. eexists. split; [reflexivity|]. simpl.
  rewrite last_snoc.
  destruct (CSRF_COOKIE_TIMEOUT (config flask)); reflexivity.
Qed.

Lemma cookie_max_age_from_config_witness :
  let w :=
    {| session := {| session_attrs := {[ "_csrf_token" ]};
                     session_items := {[ "_csrf_token" := "abc123" ]} |};
       _exempt_views := []; logger := [];
       random := {| tape := fun _ => 0; drawn := 0 |} |} in
  exists response',
    fst (_after_request Sample.csrf Sample.response w) = Ret response' /\
    last (set_cookies response') =
      Some {| cookie_key := "_csrf_token"; cookie_value := "abc123";
              cookie_max_age := Some 432000 |}.
Proof.
  intros w.
  exact (cookie_max_age_from_config Sample.csrf Sample.flask Sample.response w
           "abc123" eq_refl eq_refl).
Defined.

(** X20. A token bound by [_set_token] does not reach the response: unless
    the session object already has an attribute named [_csrf_token],
    [_after_request] run after [_set_token] returns the response as it
    received it. *)
Theorem bound_token_sets_no_cookie sha1_hexdigest self response w :
  "_csrf_token" ∉ session_attrs (session w) ->
  is_Some (session_items (session (snd (_set_token sha1_hexdigest self w)))
             !! "_csrf_token") /\
  _after_request self response (snd (_set_token sha1_hexdigest self w))
    = (Ret response, snd (_set_token sha1_hexdigest self w)).
Proof.
  intros Hattr. split.
  - destruct (session_items (session w) !! "_csrf_token") as [token|] eqn:Hw.
    + rewrite (set_token_bound _ _ _ _ Hw). simpl. rewrite Hw. eauto.
    + rewrite (set_token_fresh_eval _ _ _ Hw). simpl.
      rewrite lookup_insert_eq. eauto.
  - apply after_request_without_attribute.
    now rewrite set_token_keeps_attributes.
Qed.

Lemma bound_token_sets_no_cookie_witness :
  let digest := fun s => "sha1(" +:+ s +:+ ")" in
  let w' := snd (_set_token digest Sample.csrf (Sample.world ∅ [])) in
  _after_request Sample.csrf Sample.response w' = (Ret Sample.response, w').
Proof.
  intros digest w'.
  apply (bound_token_sets_no_cookie digest Sample.csrf Sample.response
           (Sample.world ∅ [])).
  apply (bool_decide_eq_false_1
           ("_csrf_token" ∈ session_attrs (session (Sample.world ∅ [])))).
  vm_compute. reflexivity.
Defined.

(** ** When a request is let through *)

(** X21. [_before_request] lets a request through in exactly four cases:
    validation is off; the method is GET, HEAD, OPTIONS or TRACE; the
    endpoint is found in the list of exempt views; or the referer stage is
    passed and the supplied token equals the [_csrf_token] cookie, both
    being the empty string when absent. *)
Theorem before_request_allows_iff urlparse self request w :
  fst (_before_request urlparse self request w) = Ret tt <->
  _csrf_disable self = true \/
  safe_method request = true \/
  py_in (endpoint_obj request) (_exempt_views w) = true \/
  (referer_check_passes urlparse request = true /\
   supplied_token request = dict_get (cookies request) "_csrf_token" "").
Proof.
  rewrite before_request_unfold. unfold referer_check_passes.
  assert (Htok : fst (token_stage self request w) = Ret tt <->
                 supplied_token request = dict_get (cookies request) "_csrf_token" "").
  { unfold token_stage. fold (canonical_token request). rewrite <- ctc_true_iff.
    destruct (_constant_time_compare _ _).
    - split; reflexivity.
    - split; [|discriminate]. intros H. now apply deny_not_allowed in H. }
  destruct (_csrf_disable self); [split; auto|].
  destruct (safe_method request); [split; auto|].
  destruct (py_in _ _); [split; auto|].
  destruct (is_secure request).
  - destruct (headers request !! "HTTP_REFERER") as [referer|].
    + destruct (_same_origin urlparse referer (url_root request)) as [[|]|].
      * rewrite Htok. split; [auto|].
        intros [H|[H|[H|[_ H]]]]; try discriminate; exact H.
      * split; [intros H; now apply deny_not_allowed in H|].
        intros [H|[H|[H|[H _]]]]; discriminate.
      * split; [discriminate|].
        intros [H|[H|[H|[H _]]]]; discriminate.
    + split; [intros H; now apply deny_not_allowed in H|].
      intros [H|[H|[H|[H _]]]]; discriminate.
  - rewrite Htok. split; [auto|].
    intros [H|[H|[H|[_ H]]]]; try discriminate; exact H.
Qed.

Lemma before_request_allows_iff_witness :
  let token : gmap string string := {[ "_csrf_token" := "abc123" ]} in
  let request :=
    Sample.request "POST" true
      {[ "HTTP_REFERER" := "https://example.com/form" ]} token token in
  fst (_before_request Sample.urlparse Sample.csrf request (Sample.world ∅ []))
    = Ret tt.
Proof.
  intros token request.
  apply (proj2 (before_request_allows_iff Sample.urlparse Sample.csrf request
                  (Sample.world ∅ []))).
  right. right. right. split; vm_compute; reflexivity.
Defined.
